(** * userportal/common.py: access decorators, allocation look-ups and the
      Prometheus wrapper, as a shallow embedding.

    Python dictionaries that the code indexes by key ([kwargs], the
    aggregated allocations) are finite maps; a missing key raises
    [KeyError].  Exceptions are values of [exn] carried by [result].
    The LDAP directory is the list of its records, in the order the
    directory returns them. *)

From Stdlib Require Import ZArith Ascii String.
From stdpp Require Import base option list strings gmap.

Local Open Scope string_scope.
Local Open Scope Z_scope.

(** ** Exceptions and results *)

Inductive exn : Type :=
| KeyError (key : string)
| IndexError
| DoesNotExist
| MultipleObjectsReturned
| ValueError
| OtherError (msg : string).

Inductive result (A : Type) : Type :=
| Ok (a : A)
| Raise (e : exn).
Arguments Ok {A} a.
Arguments Raise {A} e.

Definition is_raise {A} (r : result A) : bool :=
  match r with Ok _ => false | Raise _ => true end.

#[global] Instance result_ret : MRet result := fun A a => Ok a.
#[global] Instance result_bind : MBind result := fun A B f r =>
  match r with Ok a => f a | Raise e => Raise e end.

(** A list comprehension whose element expression may raise: elements are
    evaluated left to right and the first exception ends the evaluation. *)
Fixpoint comprehension {A B} (f : A → result B) (l : list A) : result (list B) :=
  match l with
  | [] => Ok []
  | a :: l' => b ← f a; bs ← comprehension f l'; Ok (b :: bs)
  end.

(** ** Python string methods used by the module *)

Module Str.

(** [c in chars] for a character. *)
Fixpoint mem (c : ascii) (chars : string) : bool :=
  match chars with
  | EmptyString => false
  | String d chars' => Ascii.eqb c d || mem c chars'
  end.

(** [s.rstrip(chars)]: the trailing characters that belong to the set
    [chars] are removed, one by one, until a character outside the set. *)
Fixpoint rstrip (chars : string) (s : string) : string :=
  match s with
  | EmptyString => EmptyString
  | String c s' =>
      match rstrip chars s' with
      | EmptyString => if mem c chars then EmptyString else String c EmptyString
      | r => String c r
      end
  end.

(** [s.startswith(p)]. *)
Definition startswith (s p : string) : bool := String.prefix p s.

(** [s.endswith(t)]: [t] is no longer than [s] and the last [len(t)]
    characters of [s] are [t]. *)
Definition endswith (s t : string) : bool :=
  (String.length t <=? String.length s)%nat
  && String.eqb (substring (String.length s - String.length t) (String.length t) s) t.

(** [s.split(sep)] for a one-character separator. *)
Fixpoint split (sep : ascii) (s : string) : list string :=
  match s with
  | EmptyString => [EmptyString]
  | String c s' =>
      if Ascii.eqb c sep then EmptyString :: split sep s'
      else match split sep s' with
           | w :: ws => String c w :: ws
           | [] => [String c EmptyString]
           end
  end.

(** [l[i]] on a list. *)
Definition index {A} (l : list A) (i : nat) : result A :=
  match l !! i with Some a => Ok a | None => Raise IndexError end.

End Str.

(** ** The web layer *)

(** The two entries of [request.META] that the portal's authentication
    layer fills in and the decorators read. *)
Record META_t : Type := { username : string; is_staff : bool }.

Record HttpRequest : Type := { META : META_t }.

Record HttpResponse : Type := { status_code : Z; content : string }.

Definition HttpResponseNotFound : HttpResponse :=
  {| status_code := 404; content := "" |}.

Definition HttpResponseForbidden : HttpResponse :=
  {| status_code := 403; content := "" |}.

Definition is_not_found (r : HttpResponse) : bool := status_code r =? 404.
Definition is_forbidden (r : HttpResponse) : bool := status_code r =? 403.

(** A view: [func(request, *args, **kwargs)]. *)
Definition view : Type :=
  HttpRequest → list string → gmap string string → result HttpResponse.

(** One invocation of the wrapped view, with the arguments it received. *)
Record call : Type :=
  Call { call_request : HttpRequest;
         call_args : list string;
         call_kwargs : gmap string string }.

(** What a wrapper does: the invocations of the wrapped view it made, and
    what it returned or raised. *)
Definition traced (A : Type) : Type := (list call * result A)%type.

Definition ret {A} (a : A) : traced A := ([], Ok a).
Definition raise {A} (e : exn) : traced A := ([], Raise e).

(** [return func(request, *args, **kwargs)] *)
Definition invoke (func : view) (request : HttpRequest) (args : list string)
    (kwargs : gmap string string) : traced HttpResponse :=
  ([Call request args kwargs], func request args kwargs).

Definition invoked {A} (t : traced A) : bool :=
  match t.1 with [] => false | _ :: _ => true end.

Definition wrapped : Type :=
  HttpRequest → list string → gmap string string → traced HttpResponse.

(** ** The LDAP directory *)

Record LdapAllocation : Type :=
  { name : string; members : list string; status : string }.

(** [field=value] on a scalar attribute, absent when the keyword is not given. *)
Definition exact (v : option string) (attr : string) : bool :=
  match v with None => true | Some s => String.eqb attr s end.

(** [members=value] on the multi-valued attribute. *)
Definition contains (v : option string) (attr : list string) : bool :=
  match v with None => true | Some s => existsb (String.eqb s) attr end.

Module QuerySet.

(** [objects.filter(name=.., members=.., status=..)] *)
Definition filter (by_name by_members by_status : option string)
    (objects : list LdapAllocation) : list LdapAllocation :=
  List.filter
    (fun a => exact by_name (name a) && contains by_members (members a)
              && exact by_status (status a))
    objects.

(** [.get()]: the single record of the query set. *)
Definition get (qs : list LdapAllocation) : result LdapAllocation :=
  match qs with
  | [] => Raise DoesNotExist
  | [a] => Ok a
  | _ :: _ :: _ => Raise MultipleObjectsReturned
  end.

(** [.all()] *)
Definition all (qs : list LdapAllocation) : list LdapAllocation := qs.

End QuerySet.

(** ** The decorators *)

Section Decorators.

(** The content of the directory, [LdapAllocation.objects]. *)
Variable objects : list LdapAllocation.

Definition user_or_staff (func : view) : wrapped :=
  fun request args kwargs =>
    match kwargs !! "username" with
    | None => raise (KeyError "username")
    | Some kw_username =>
        if String.eqb (username (META request)) kw_username then
          invoke func request args kwargs
        else if is_staff (META request) then
          invoke func request args kwargs
        else
          ret HttpResponseNotFound
    end.

Definition account_or_staff (func : view) : wrapped :=
  fun request args kwargs =>
    match kwargs !! "account" with
    | None => raise (KeyError "account")
    | Some account =>
        match Str.index (Str.split "_" account) 0 with
        | Raise e => raise e
        | Ok alloc_name =>
            if is_staff (META request) then invoke func request args kwargs
            else
              match QuerySet.get
                      (QuerySet.filter (Some alloc_name)
                         (Some (username (META request)))
                         (Some "active") objects) with
              | Raise DoesNotExist => ret HttpResponseNotFound
              | Raise e => raise e
              | Ok _ => invoke func request args kwargs
              end
        end
    end.

Definition openstackproject_or_staff (func : view) : wrapped :=
  fun request args kwargs =>
    if is_staff (META request) then invoke func request args kwargs
    else ret HttpResponseNotFound.

Definition staff (func : view) : wrapped :=
  fun request args kwargs =>
    if is_staff (META request) then invoke func request args kwargs
    else ret HttpResponseNotFound.

End Decorators.

(** ** Allocation look-ups *)

(** The values held by an aggregated allocation (a Python dict). *)
Inductive pyval : Type :=
| PyNone
| PyInt (z : Z)
| PyStr (s : string).

Section Allocations.

(** The content of the directory, [LdapAllocation.objects]. *)
Variable objects : list LdapAllocation.

(** [ccldap.common.convert_ldap_to_allocation]: the aggregation of
    directory records into allocation summaries.  It is defined outside
    this module and is taken as given. *)
Variable convert_ldap_to_allocation :
  list LdapAllocation → list (gmap string pyval).

Definition compute_allocations_by_user (username : string)
    : list (gmap string pyval) :=
  let allocations :=
    QuerySet.all (QuerySet.filter None (Some username) (Some "active") objects) in
  convert_ldap_to_allocation allocations.

Definition compute_allocation_by_account (account : string)
    : list (gmap string pyval) :=
  let allocations :=
    QuerySet.all (QuerySet.filter (Some account) None (Some "active") objects) in
  convert_ldap_to_allocation allocations.

(** The loop of [compute_default_allocation_by_user]; [allocs] is the
    list built so far. *)
Fixpoint default_loop (allocs : list string) (qs : list LdapAllocation)
    : list string :=
  match qs with
  | [] => allocs
  | alloc :: qs' =>
      if Str.startswith (name alloc) "def-"
      then default_loop (allocs ++ [name alloc]) qs'
      else default_loop allocs qs'
  end.

Definition compute_default_allocation_by_user (username : string)
    : list string :=
  default_loop []
    (QuerySet.all (QuerySet.filter None (Some username) (Some "active") objects)).

(** [for alloc in allocations: if key in alloc: return alloc[key]];
    [None] when the loop ends without returning. *)
Fixpoint first_quota (key : string) (allocations : list (gmap string pyval))
    : option pyval :=
  match allocations with
  | [] => None
  | alloc :: allocations' =>
      match alloc !! key with
      | Some v => Some v
      | None => first_quota key allocations'
      end
  end.

Definition compute_allocations_by_slurm_account (account : string) : pyval :=
  let account_name := Str.rstrip "_cpu" (Str.rstrip "_gpu" account) in
  let allocations := compute_allocation_by_account account_name in
  if Str.endswith account "_gpu" then
    match first_quota "gpu" allocations with
    | Some v => v
    | None => PyNone
    end
  else
    match first_quota "cpu" allocations with
    | Some v => v
    | None => PyNone
    end.

(** *** The look-up as the specification words it *)

(** The account name with its trailing ['_gpu'] or ['_cpu'] marker removed. *)
Definition marker_removed (account : string) : string :=
  if Str.endswith account "_gpu" || Str.endswith account "_cpu"
  then substring 0 (String.length account - 4) account
  else account.

Definition quota_key (account : string) : string :=
  if Str.endswith account "_gpu" then "gpu" else "cpu".

Definition spec_allocations_by_slurm_account (account : string) : pyval :=
  match first_quota (quota_key account)
          (compute_allocation_by_account (marker_removed account)) with
  | Some v => v
  | None => PyNone
  end.

End Allocations.

(** ** The Prometheus wrapper *)

Section Metrics.

(** Raw timestamps, [datetime] values and Python floats, with the two
    conversions the wrapper applies to them. *)
Variables timestamp datetime pyfloat : Type.
Variable fromtimestamp : timestamp → result datetime.
Variable float : string → result pyfloat.

(** [datetime.now()] at the time of the call. *)
Variable now : datetime.

(** One series of the backend's answer to a range query: its labels and
    its [timestamp, value] pairs. *)
Record raw_series : Type :=
  { raw_metric : gmap string string;
    raw_values : list (timestamp * string) }.

(** The client object, [PrometheusConnect]. *)
Record PrometheusConnect : Type :=
  { custom_query_range :
      string → datetime → datetime → string → result (list raw_series) }.

Record Prometheus : Type :=
  { prom : PrometheusConnect; get_filter : string }.

(** The dict appended for each series. *)
Record series : Type :=
  { metric : gmap string string; x : list datetime; y : list pyfloat }.

Definition normalize (line : raw_series) : result series :=
  xs ← comprehension (fun p => fromtimestamp p.1) (raw_values line);
  ys ← comprehension (fun p => float p.2) (raw_values line);
  Ok {| metric := raw_metric line; x := xs; y := ys |}.

(** The loop of [query_prometheus_multiple]. *)
Fixpoint multiple_loop (return_list : list series) (q : list raw_series)
    : result (list series) :=
  match q with
  | [] => Ok return_list
  | line :: q' =>
      entry ← normalize line;
      multiple_loop (return_list ++ [entry]) q'
  end.

Definition query_prometheus_multiple (self : Prometheus) (query : string)
    (start : datetime) (end_ : option datetime) (step : string)
    : result (list series) :=
  let end_ := match end_ with None => now | Some e => e end in
  q ← custom_query_range (prom self) query start end_ step;
  multiple_loop [] q.

Definition query_prometheus (self : Prometheus) (query : string)
    (duration : datetime) (end_ : option datetime) (step : string)
    : result (list datetime * list pyfloat) :=
  values ← query_prometheus_multiple self query duration end_ step;
  if (length values =? 0)%nat then Raise ValueError
  else
    v0 ← Str.index values 0;
    Ok (x v0, y v0).

End Metrics.

Arguments raw_metric {timestamp}.
Arguments raw_values {timestamp}.
Arguments custom_query_range {timestamp datetime}.
Arguments prom {timestamp datetime}.
Arguments metric {datetime pyfloat}.
Arguments x {datetime pyfloat}.
Arguments y {datetime pyfloat}.
Arguments normalize {timestamp datetime pyfloat}.
Arguments multiple_loop {timestamp datetime pyfloat}.
Arguments query_prometheus_multiple {timestamp datetime pyfloat}.
Arguments query_prometheus {timestamp datetime pyfloat}.

(** ** User look-ups *)

Module Users.

(** A user entry of the directory, [ccldap.models.LdapUser], with the two
    attributes the module reads. *)
Record LdapUser : Type := { username : string; uid : Z }.

(** [uid=value], absent when the keyword is not given. *)
Definition exact_uid (v : option Z) (attr : Z) : bool :=
  match v with None => true | Some n => attr =? n end.

(** [LdapUser.objects.filter(username=.., uid=..)] *)
Definition filter (by_username : option string) (by_uid : option Z)
    (objects : list LdapUser) : list LdapUser :=
  List.filter
    (fun u => exact by_username (username u) && exact_uid by_uid (uid u))
    objects.

(** [.get()]: the single entry of the query set. *)
Definition get (qs : list LdapUser) : result LdapUser :=
  match qs with
  | [] => Raise DoesNotExist
  | [u] => Ok u
  | _ :: _ :: _ => Raise MultipleObjectsReturned
  end.

End Users.

Section UserLookups.

(** The user entries of the directory, [LdapUser.objects]. *)
Variable objects : list Users.LdapUser.

Definition username_to_uid (username : string) : result Z :=
  u ← Users.get (Users.filter (Some username) None objects);
  Ok (Users.uid u).

Definition uid_to_username (uid : Z) : result string :=
  u ← Users.get (Users.filter None (Some uid) objects);
  Ok (Users.username u).

End UserLookups.

(** ** Construction of the Prometheus wrapper *)

Section MetricsInit.

Variables timestamp datetime : Type.

(** The [config] dictionary, with the three keys that [__init__] reads;
    [None] stands for a key that the dictionary does not have. *)
Record config : Type :=
  { cfg_url : option string;
    cfg_headers : option (gmap string string);
    cfg_filter : option string }.

(** The constructor of the client library, [PrometheusConnect(url=..,
    headers=..)]. *)
Variable PrometheusConnect_new :
  string → gmap string string → result (PrometheusConnect timestamp datetime).

(** [config[key]] *)
Definition getitem {A} (key : string) (entry : option A) : result A :=
  match entry with Some a => Ok a | None => Raise (KeyError key) end.

(** [Prometheus(config)]: the keyword arguments of the constructor call
    are evaluated from left to right, then the call is made, then the
    filter is read. *)
Definition Prometheus_init (cfg : config) : result (Prometheus timestamp datetime) :=
  url ← getitem "url" (cfg_url cfg);
  headers ← getitem "headers" (cfg_headers cfg);
  client ← PrometheusConnect_new url headers;
  flt ← getitem "filter" (cfg_filter cfg);
  Ok {| prom := client; get_filter := flt |}.

End MetricsInit.

Arguments getitem {A}.
Arguments Prometheus_init {timestamp datetime}.

(** * Specification-side definitions *)

(** The part of [s] before the first occurrence of [sep], the whole of [s]
    when [sep] does not occur. *)
Fixpoint before_first (sep : ascii) (s : string) : string :=
  match s with
  | EmptyString => EmptyString
  | String c s' =>
      if Ascii.eqb c sep then EmptyString else String c (before_first sep s')
  end.

(** A record that satisfies the three keyword conditions of a query. *)
Definition matches (by_name by_members by_status : option string)
    (a : LdapAllocation) : Prop :=
  (∀ n, by_name = Some n → name a = n)
  ∧ (∀ u, by_members = Some u → u ∈ members a)
  ∧ (∀ s, by_status = Some s → status a = s).

(** The matching records of the membership look-up of [account_or_staff]. *)
Definition member_records (objects : list LdapAllocation)
    (alloc_name user : string) : list LdapAllocation :=
  QuerySet.filter (Some alloc_name) (Some user) (Some "active") objects.

(** The statement of C2 as the specification words it: the wrapped view is
    invoked exactly for staff and for requesters with exactly one matching
    record, and every other request gets the not-found response. *)
Definition account_or_staff_stated (objects : list LdapAllocation)
    (func : view) (request : HttpRequest) (args : list string)
    (kwargs : gmap string string) (account : string) : Prop :=
  let r := account_or_staff objects func request args kwargs in
  let permitted :=
    is_staff (META request) = true
    ∨ length (member_records objects (before_first "_" account)
                (username (META request))) = 1%nat in
  (invoked r = true ↔ permitted)
  ∧ (¬ permitted → r = ([], Ok HttpResponseNotFound)).

(** A record is a default allocation of [user]: the user is one of its
    members, it is active and its name starts with ['def-']. *)
Definition is_default_of (user : string) (a : LdapAllocation) : Prop :=
  user ∈ members a ∧ status a = "active" ∧ Str.startswith (name a) "def-" = true.

#[global] Instance is_default_of_dec user a : Decision (is_default_of user a).
Proof. unfold is_default_of. apply _. Defined.

(** The name under which [compute_allocations_by_slurm_account] looks the
    aggregated allocations up. *)
Definition looked_up_name (account : string) : string :=
  Str.rstrip "_cpu" (Str.rstrip "_gpu" account).

Section MetricsSpec.

Context {timestamp datetime pyfloat : Type}.
Variable fromtimestamp : timestamp → result datetime.
Variable float : string → result pyfloat.

(** An entry of the result is the normal form of a raw series: same
    labels, and [x] and [y] are the converted timestamps and values of
    the raw pairs, pair by pair. *)
Definition normalized (line : raw_series timestamp)
    (entry : series datetime pyfloat) : Prop :=
  metric entry = raw_metric line
  ∧ Forall2 (fun p d => fromtimestamp p.1 = Ok d) (raw_values line) (x entry)
  ∧ Forall2 (fun p v => float p.2 = Ok v) (raw_values line) (y entry)
  ∧ length (x entry) = length (y entry).

(** Both conversions are defined on every raw pair of the series. *)
Definition convertible (line : raw_series timestamp) : Prop :=
  ∀ p, p ∈ raw_values line →
       is_raise (fromtimestamp p.1) = false ∧ is_raise (float p.2) = false.

End MetricsSpec.

Section MetricsStated.

Context {timestamp datetime pyfloat : Type}.
Variable fromtimestamp : timestamp → result datetime.
Variable float : string → result pyfloat.
Variable now : datetime.

(** The statement of C5 as the specification words it: the single-series
    query raises exactly when the multi-series query with the same
    arguments returns no series, and returns a value when it returns at
    least one. *)
Definition query_prometheus_stated (self : Prometheus timestamp datetime)
    (query : string) (duration : datetime) (end_ : option datetime)
    (step : string) : Prop :=
  let m :=
    query_prometheus_multiple fromtimestamp float now self query duration end_ step in
  let r := query_prometheus fromtimestamp float now self query duration end_ step in
  (is_raise r = true ↔ m = Ok [])
  ∧ (∀ v vs, m = Ok (v :: vs) → ∃ xy, r = Ok xy).

End MetricsStated.

(** Every character of [t] belongs to the set [chars]. *)
Fixpoint all_in (chars : string) (t : string) : bool :=
  match t with
  | EmptyString => true
  | String c t' => Str.mem c chars && all_in chars t'
  end.

(** ** Sample data *)

Module Sample.

Definition alice : HttpRequest :=
  {| META := {| username := "alice"; is_staff := false |} |}.

Definition admin : HttpRequest :=
  {| META := {| username := "root"; is_staff := true |} |}.

Definition ok_view : view :=
  fun _ _ _ => Ok {| status_code := 200; content := "ok" |}.

Definition prof : LdapAllocation :=
  {| name := "def-prof"; members := ["alice"; "bob"]; status := "active" |}.

Definition prof_renewed : LdapAllocation :=
  {| name := "def-prof"; members := ["alice"]; status := "active" |}.

Definition group : LdapAllocation :=
  {| name := "def-group"; members := ["carol"]; status := "active" |}.

Definition rrg : LdapAllocation :=
  {| name := "rrg-prof"; members := ["alice"]; status := "active" |}.

Definition expired : LdapAllocation :=
  {| name := "def-old"; members := ["alice"]; status := "expired" |}.

Definition directory : list LdapAllocation := [rrg; prof; expired; group].

Definition duplicated : list LdapAllocation := [prof; prof_renewed].

Definition kw_account : gmap string string := {[ "account" := "def-prof_cpu" ]}.

Definition kw_username : gmap string string := {[ "username" := "bob" ]}.

(** An aggregation that gives every record eight cores and four GPUs. *)
Definition convert (l : list LdapAllocation) : list (gmap string pyval) :=
  (fun a => <[ "name" := PyStr (name a) ]>
              (<[ "cpu" := PyInt 8 ]> (<[ "gpu" := PyInt 4 ]> ∅))) <$> l.

(** An aggregation of storage-only summaries, without quota fields. *)
Definition convert_storage (l : list LdapAllocation) : list (gmap string pyval) :=
  (fun a => <[ "name" := PyStr (name a) ]> ∅) <$> l.

End Sample.

(** ** Sample backend *)

Module SampleMetrics.

(** Whole seconds for timestamps and [datetime], and whole numbers for
    the floats, are enough to run the wrapper. *)
Definition fromtimestamp (t : Z) : result Z :=
  if t <? 0 then Raise (OtherError "year is out of range") else Ok t.

Definition digit (c : ascii) : option Z :=
  let n := Z.of_nat (nat_of_ascii c) in
  if (48 <=? n) && (n <=? 57) then Some (n - 48) else None.

Fixpoint digits (acc : Z) (s : string) : result Z :=
  match s with
  | EmptyString => Ok acc
  | String c s' =>
      match digit c with
      | Some d => digits (10 * acc + d) s'
      | None => Raise ValueError
      end
  end.

Definition float (s : string) : result Z :=
  match s with
  | EmptyString => Raise ValueError
  | String _ _ => digits 0 s
  end.

Definition now : Z := 1700000000.

Definition node1 : raw_series Z :=
  {| raw_metric := {[ "instance" := "node1" ]};
     raw_values := [(1699999640, "12"); (1699999820, "15")] |}.

Definition node2 : raw_series Z :=
  {| raw_metric := {[ "instance" := "node2" ]};
     raw_values := [(1699999640, "7")] |}.

Definition backend : PrometheusConnect Z Z :=
  {| custom_query_range := fun query _ _ _ =>
       if String.eqb query "cpu_usage" then Ok [node1; node2]
       else if String.eqb query "absent" then Ok []
       else Raise (OtherError "bad_data") |}.

Definition self : Prometheus Z Z :=
  {| prom := backend; get_filter := "cluster='c1'" |}.

Definition node1_entry : series Z Z :=
  {| metric := {[ "instance" := "node1" ]};
     x := [1699999640; 1699999820];
     y := [12; 15] |}.

Definition node2_entry : series Z Z :=
  {| metric := {[ "instance" := "node2" ]}; x := [1699999640]; y := [7] |}.

End SampleMetrics.

(** ** Sample users and configurations *)

Module SampleUsers.

Definition alice : Users.LdapUser := {| Users.username := "alice"; Users.uid := 3001 |}.
Definition bob : Users.LdapUser := {| Users.username := "bob"; Users.uid := 3002 |}.
Definition carol : Users.LdapUser := {| Users.username := "carol"; Users.uid := 3003 |}.

(** A second entry that reuses the uid of [bob]. *)
Definition bobby : Users.LdapUser := {| Users.username := "bobby"; Users.uid := 3002 |}.

Definition directory : list Users.LdapUser := [alice; bob; carol].

Definition clashing : list Users.LdapUser := [alice; bob; bobby].

(** An aggregation whose first summary has no quota field. *)
Definition convert_mixed (l : list LdapAllocation) : list (gmap string pyval) :=
  match l with
  | [] => []
  | a :: l' => <[ "name" := PyStr (name a) ]> ∅ :: Sample.convert l'
  end.

(** A client constructor that accepts every url. *)
Definition connect (url : string) (headers : gmap string string)
    : result (PrometheusConnect Z Z) :=
  Ok SampleMetrics.backend.

Definition full_config : config :=
  {| cfg_url := Some "https://prometheus.example.org";
     cfg_headers := Some {[ "Authorization" := "Basic abc" ]};
     cfg_filter := Some "cluster='c1'" |}.

Definition no_filter_config : config :=
  {| cfg_url := Some "https://prometheus.example.org";
     cfg_headers := Some ∅;
     cfg_filter := None |}.

(** A series without samples, followed by one with a sample. *)
Definition idle : raw_series Z :=
  {| raw_metric := {[ "instance" := "node3" ]}; raw_values := [] |}.

Definition idle_backend : PrometheusConnect Z Z :=
  {| custom_query_range := fun _ _ _ _ => Ok [idle; SampleMetrics.node2] |}.

Definition idle_self : Prometheus Z Z :=
  {| prom := idle_backend; get_filter := "" |}.

Definition down_backend : PrometheusConnect Z Z :=
  {| custom_query_range := fun _ _ _ _ => Raise (OtherError "connection refused") |}.

Definition down_self : Prometheus Z Z :=
  {| prom := down_backend; get_filter := "" |}.

End SampleUsers.

(** * Properties *)

(** ** Strings *)

Lemma split_head sep s :
  ∃ ws, Str.split sep s = before_first sep s :: ws.
Proof.
  induction s as [|c s [ws IH]]; simpl; [by eexists|].
  destruct (Ascii.eqb c sep); [by eexists|].
  rewrite IH. by eexists.
Qed.

Lemma split_index_0 sep s :
  Str.index (Str.split sep s) 0 = Ok (before_first sep s).
Proof. destruct (split_head sep s) as [ws ->]. reflexivity. Qed.

Lemma before_first_prefix sep s :
  s = before_first sep s
  ∨ ∃ rest, s = before_first sep s +:+ String sep rest.
Proof.
  induction s as [|c s IH]; simpl; [by left|].
  destruct (Ascii.eqb_spec c sep) as [->|Hne].
  - right. by exists s.
  - destruct IH as [IH|[rest IH]].
    + left. f_equal. exact IH.
    + right. exists rest.
      change (String c s = String c (before_first sep s +:+ String sep rest)).
      f_equal. exact IH.
Qed.

Lemma before_first_no_sep sep s : Str.mem sep (before_first sep s) = false.
Proof.
  induction s as [|c s IH]; simpl; [done|].
  destruct (Ascii.eqb_spec c sep) as [->|Hne]; simpl; [done|].
  rewrite IH. destruct (Ascii.eqb_spec sep c); [congruence|done].
Qed.

Lemma startswith_spec s p :
  Str.startswith s p = true ↔ ∃ rest, s = p +:+ rest.
Proof.
  unfold Str.startswith. revert s.
  induction p as [|c p IH]; intros [|d s]; simpl.
  - split; [intros _; by exists EmptyString|done].
  - split; [intros _; by exists (String d s)|done].
  - split; [done|intros [rest ?]; done].
  - destruct (Ascii.ascii_dec c d) as [->|Hne].
    + rewrite IH. split; intros [rest H]; exists rest.
      * change (String d s = String d (p +:+ rest)). by f_equal.
      * change (String d s = String d (p +:+ rest)) in H. congruence.
    + split; [done|intros [rest H]].
      change (String d s = String c (p +:+ rest)) in H. congruence.
Qed.

(** ** The directory query *)

Lemma existsb_eqb_elem_of (u : string) (l : list string) :
  existsb (String.eqb u) l = true ↔ u ∈ l.
Proof.
  rewrite existsb_exists, list_elem_of_In. split.
  - intros [v [Hin Heq]]. apply String.eqb_eq in Heq. by subst.
  - intros Hin. exists u. split; [done|apply String.eqb_refl].
Qed.

Lemma exact_spec v attr :
  exact v attr = true ↔ ∀ s, v = Some s → attr = s.
Proof.
  destruct v as [s|]; simpl.
  - rewrite String.eqb_eq. split; [by intros -> ? [= <-]|by intros H; apply H].
  - split; [by intros|done].
Qed.

Lemma contains_spec v attr :
  contains v attr = true ↔ ∀ u, v = Some u → u ∈ attr.
Proof.
  destruct v as [u|]; simpl.
  - rewrite existsb_eqb_elem_of.
    split; [by intros ? ? [= <-]|by intros H; apply H].
  - split; [by intros|done].
Qed.

Lemma filter_elem_of by_name by_members by_status objects a :
  a ∈ QuerySet.filter by_name by_members by_status objects
  ↔ a ∈ objects ∧ matches by_name by_members by_status a.
Proof.
  unfold QuerySet.filter, matches.
  rewrite !list_elem_of_In, filter_In, !andb_true_iff.
  rewrite !exact_spec, contains_spec. tauto.
Qed.

Lemma member_records_elem_of objects alloc_name user a :
  a ∈ member_records objects alloc_name user
  ↔ a ∈ objects ∧ name a = alloc_name ∧ user ∈ members a ∧ status a = "active".
Proof.
  unfold member_records. rewrite filter_elem_of. unfold matches.
  split.
  - intros (? & Hn & Hm & Hs). split_and!; eauto.
  - intros (? & <- & ? & ->).
    split; [done|]. by split_and!; intros ? [= <-].
Qed.

(** ** The decorators *)

(** C3 -- [user_or_staff]: when the view is called with a ['username']
    keyword argument, the wrapper invokes the wrapped view, once and with
    the arguments it received, if and only if the requester's username
    equals that argument or the requester is staff; otherwise it returns
    the not-found response without invoking the view. *)
Theorem user_or_staff_spec (func : view) (request : HttpRequest)
    (args : list string) (kwargs : gmap string string) (kw_username : string) :
  kwargs !! "username" = Some kw_username →
  let r := user_or_staff func request args kwargs in
  let permitted :=
    username (META request) = kw_username ∨ is_staff (META request) = true in
  (invoked r = true ↔ permitted)
  ∧ (permitted → r = ([Call request args kwargs], func request args kwargs))
  ∧ (¬ permitted → r = ([], Ok HttpResponseNotFound)).
Proof.
  intros Hkw. cbv zeta. unfold user_or_staff. rewrite Hkw.
  destruct (String.eqb_spec (username (META request)) kw_username) as [Heq|Hne].
  - unfold invoke, invoked; simpl. split_and!; [tauto|done|tauto].
  - destruct (is_staff (META request)); unfold invoke, ret, invoked; simpl.
    + split_and!; [tauto|done|tauto].
    + split_and!; [|intros [?|?]; done|done].
      split; [done|intros [?|?]; done].
Qed.

Lemma user_or_staff_spec_witness :
  Sample.kw_username !! "username" = Some "bob"
  ∧ user_or_staff Sample.ok_view Sample.alice [] Sample.kw_username
    = ([], Ok HttpResponseNotFound).
Proof.
  split; [reflexivity|].
  apply (user_or_staff_spec Sample.ok_view Sample.alice [] Sample.kw_username "bob");
    [reflexivity|].
  intros [H|H]; discriminate H.
Defined.

(** C2, as stated, fails: with two active records of the same name that
    both list the requester, the requester is not permitted, yet the
    wrapper does not return the not-found response: the look-up raises
    [MultipleObjectsReturned]. *)
Lemma account_or_staff_stated_fails :
  Sample.kw_account !! "account" = Some "def-prof_cpu"
  ∧ account_or_staff Sample.duplicated Sample.ok_view Sample.alice []
      Sample.kw_account = ([], Raise MultipleObjectsReturned)
  ∧ ¬ account_or_staff_stated Sample.duplicated Sample.ok_view Sample.alice []
        Sample.kw_account "def-prof_cpu".
Proof.
  split_and!; [reflexivity|reflexivity|].
  intros [_ H].
  assert (Hr : account_or_staff Sample.duplicated Sample.ok_view Sample.alice []
                 Sample.kw_account = ([], Ok HttpResponseNotFound)).
  { apply H. intros [Hs|Hl]; [discriminate Hs|]. vm_compute in Hl. discriminate Hl. }
  vm_compute in Hr. discriminate Hr.
Qed.

(** C2, amended -- [account_or_staff]: when the view is called with an
    ['account'] keyword argument, the wrapper invokes the wrapped view if
    and only if the requester is staff or exactly one record has the name
    before the first ['_'] of that argument, lists the requester among its
    members and is active.  A requester who is not staff gets the not-found
    response when no record matches; when more than one record matches the
    look-up's [MultipleObjectsReturned] propagates. *)
Theorem account_or_staff_spec (objects : list LdapAllocation) (func : view)
    (request : HttpRequest) (args : list string)
    (kwargs : gmap string string) (account : string) :
  kwargs !! "account" = Some account →
  let r := account_or_staff objects func request args kwargs in
  let found :=
    member_records objects (before_first "_" account) (username (META request)) in
  let permitted := is_staff (META request) = true ∨ length found = 1%nat in
  (invoked r = true ↔ permitted)
  ∧ (permitted → r = ([Call request args kwargs], func request args kwargs))
  ∧ (is_staff (META request) = false → found = [] →
     r = ([], Ok HttpResponseNotFound))
  ∧ (is_staff (META request) = false → (2 ≤ length found)%nat →
     r = ([], Raise MultipleObjectsReturned)).
Proof.
  intros Hkw. cbv zeta. unfold account_or_staff, member_records.
  rewrite Hkw, split_index_0.
  destruct (is_staff (META request)).
  { unfold invoke, invoked; simpl. split_and!; [tauto|done|done|done]. }
  destruct (QuerySet.filter _ _ _ objects) as [|a [|b l]];
    unfold invoke, ret, raise, invoked; simpl.
  - split_and!; [|intros [?|?]; done|done|lia].
    split; [done|intros [?|?]; done].
  - split_and!; [tauto|done|done|lia].
  - split_and!; [|intros [?|?]; done|done|done].
    split; [done|intros [?|?]; done].
Qed.

Lemma account_or_staff_spec_witness :
  Sample.kw_account !! "account" = Some "def-prof_cpu"
  ∧ (invoked (account_or_staff Sample.directory Sample.ok_view Sample.alice []
                Sample.kw_account) = true
     ↔ is_staff (META Sample.alice) = true
       ∨ length (member_records Sample.directory
                   (before_first "_" "def-prof_cpu")
                   (username (META Sample.alice))) = 1%nat).
Proof.
  split; [reflexivity|].
  apply (account_or_staff_spec Sample.directory Sample.ok_view Sample.alice []
           Sample.kw_account "def-prof_cpu").
  reflexivity.
Defined.

(** A member of the allocation and a staff requester both reach the view;
    staff does so even where the membership look-up would raise. *)
Example account_or_staff_member :
  account_or_staff Sample.directory Sample.ok_view Sample.alice []
    Sample.kw_account
  = ([Call Sample.alice [] Sample.kw_account],
     Ok {| status_code := 200; content := "ok" |}).
Proof. reflexivity. Qed.

Example account_or_staff_admin :
  invoked (account_or_staff Sample.duplicated Sample.ok_view Sample.admin []
             Sample.kw_account) = true.
Proof. reflexivity. Qed.

(** C4 -- a request that one of the four decorators denies (the wrapper
    returns a response of its own, the wrapped view not being invoked)
    receives the not-found response, status 404, and never a forbidden
    one, status 403. *)
Theorem denied_is_not_found (objects : list LdapAllocation) (func : view)
    (request : HttpRequest) (args : list string) (kwargs : gmap string string)
    (resp : HttpResponse) :
  user_or_staff func request args kwargs = ([], Ok resp)
  ∨ account_or_staff objects func request args kwargs = ([], Ok resp)
  ∨ openstackproject_or_staff func request args kwargs = ([], Ok resp)
  ∨ staff func request args kwargs = ([], Ok resp) →
  resp = HttpResponseNotFound
  ∧ is_not_found resp = true
  ∧ is_forbidden resp = false.
Proof.
  intros H.
  assert (Hr : resp = HttpResponseNotFound); [|by subst resp].
  destruct H as [H|[H|[H|H]]].
  - unfold user_or_staff in H.
    destruct (kwargs !! "username") as [u|]; [|discriminate H].
    destruct (String.eqb _ u); [discriminate H|].
    destruct (is_staff (META request)); [discriminate H|].
    by injection H.
  - unfold account_or_staff in H.
    destruct (kwargs !! "account") as [account|]; [|discriminate H].
    rewrite split_index_0 in H.
    destruct (is_staff (META request)); [discriminate H|].
    destruct (QuerySet.filter _ _ _ objects) as [|a [|b l]]; simpl in H;
      [by injection H|discriminate H|discriminate H].
  - unfold openstackproject_or_staff in H.
    destruct (is_staff (META request)); [discriminate H|]. by injection H.
  - unfold staff in H.
    destruct (is_staff (META request)); [discriminate H|]. by injection H.
Qed.

Lemma denied_is_not_found_witness :
  staff Sample.ok_view Sample.alice [] ∅ = ([], Ok HttpResponseNotFound)
  ∧ is_forbidden HttpResponseNotFound = false.
Proof.
  split; [reflexivity|].
  apply (denied_is_not_found Sample.directory Sample.ok_view Sample.alice [] ∅
           HttpResponseNotFound).
  right; right; right. reflexivity.
Defined.

(** C8 -- [openstackproject_or_staff]: a requester who is not staff gets
    the not-found response and the wrapped view is not invoked.  The
    wrapper reads the staff flag only: it makes no directory look-up, so
    membership of the project's allocation cannot change the outcome. *)
Theorem openstackproject_or_staff_non_staff (func : view)
    (request : HttpRequest) (args : list string) (kwargs : gmap string string) :
  is_staff (META request) = false →
  openstackproject_or_staff func request args kwargs
  = ([], Ok HttpResponseNotFound)
  ∧ invoked (openstackproject_or_staff func request args kwargs) = false.
Proof.
  intros Hs. unfold openstackproject_or_staff. by rewrite Hs.
Qed.

Lemma openstackproject_or_staff_non_staff_witness :
  is_staff (META Sample.alice) = false
  ∧ openstackproject_or_staff Sample.ok_view Sample.alice []
      Sample.kw_account = ([], Ok HttpResponseNotFound).
Proof.
  split; [reflexivity|].
  apply (openstackproject_or_staff_non_staff Sample.ok_view Sample.alice []
           Sample.kw_account).
  reflexivity.
Defined.

(** ** Allocation look-ups *)

Lemma default_loop_acc (allocs : list string) (qs : list LdapAllocation) :
  default_loop allocs qs
  = (allocs ++ (name <$> List.filter (fun a => Str.startswith (name a) "def-") qs))%list.
Proof.
  revert allocs. induction qs as [|a qs IH]; intros allocs; simpl.
  - by rewrite app_nil_r.
  - destruct (Str.startswith (name a) "def-"); rewrite IH; [|done].
    by rewrite <- app_assoc.
Qed.

Lemma active_member_query user a :
  exact None (name a) && contains (Some user) (members a)
  && exact (Some "active") (status a) = true
  ↔ user ∈ members a ∧ status a = "active".
Proof.
  simpl. rewrite andb_true_iff, existsb_eqb_elem_of, String.eqb_eq. tauto.
Qed.

Lemma default_names_filter user (objects : list LdapAllocation) :
  name <$> List.filter (fun a => Str.startswith (name a) "def-")
             (QuerySet.filter None (Some user) (Some "active") objects)
  = name <$> filter (is_default_of user) objects.
Proof.
  unfold QuerySet.filter.
  induction objects as [|a objects IH]; [done|].
  rewrite filter_cons. cbn [List.filter].
  pose proof (active_member_query user a) as Hq.
  destruct (exact None (name a) && contains (Some user) (members a)
            && exact (Some "active") (status a)) eqn:Hg.
  - cbn [List.filter].
    destruct (Str.startswith (name a) "def-") eqn:Hp.
    + rewrite decide_True; [|unfold is_default_of; tauto].
      rewrite !fmap_cons. by f_equal.
    + rewrite decide_False; [done|].
      unfold is_default_of. rewrite Hp. intros (_ & _ & ?). done.
  - rewrite decide_False; [done|].
    unfold is_default_of. intros (? & ? & _).
    assert (false = true) by (apply Hq; tauto). done.
Qed.

(** C6 -- [compute_default_allocation_by_user]: the result is the list of
    the names of the records that list the user among their members, are
    active and whose name starts with ['def-'], in the order of the
    directory; it is the sub-list of the ['def-'] names of the directory
    query for the user's active records, in the order of that query. *)
Theorem compute_default_allocation_by_user_spec
    (objects : list LdapAllocation) (user : string) :
  compute_default_allocation_by_user objects user
  = name <$> filter (is_default_of user) objects
  ∧ compute_default_allocation_by_user objects user
    = name <$> List.filter (fun a => Str.startswith (name a) "def-")
                 (QuerySet.all
                    (QuerySet.filter None (Some user) (Some "active") objects)).
Proof.
  unfold compute_default_allocation_by_user, QuerySet.all.
  rewrite default_loop_acc. simpl. split; [|done].
  apply default_names_filter.
Qed.

Lemma first_quota_none key (allocations : list (gmap string pyval)) :
  (∀ alloc, alloc ∈ allocations → alloc !! key = None) →
  first_quota key allocations = None.
Proof.
  induction allocations as [|alloc allocations IH]; intros H; simpl; [done|].
  rewrite (H alloc) by apply list_elem_of_here.
  apply IH. intros alloc' Hin. apply H. by apply list_elem_of_further.
Qed.

(** The first allocation that has the key decides the result. *)
Lemma first_quota_some key (before : list (gmap string pyval)) alloc rest v :
  (∀ alloc', alloc' ∈ before → alloc' !! key = None) →
  alloc !! key = Some v →
  first_quota key (before ++ alloc :: rest) = Some v.
Proof.
  induction before as [|b before IH]; intros Hbefore Hv; simpl.
  - by rewrite Hv.
  - rewrite (Hbefore b) by apply list_elem_of_here.
    apply IH; [|done]. intros ? ?. apply Hbefore. by apply list_elem_of_further.
Qed.

(** [rstrip] over a concatenation: when the tail is stripped away whole,
    stripping goes on into the head; otherwise the head is untouched. *)
Lemma rstrip_app chars s t :
  Str.rstrip chars (s +:+ t)
  = match Str.rstrip chars t with
    | EmptyString => Str.rstrip chars s
    | String _ _ as r => s +:+ r
    end.
Proof.
  induction s as [|c s IH].
  - change (EmptyString +:+ t) with t. by destruct (Str.rstrip chars t).
  - change (String c s +:+ t) with (String c (s +:+ t)).
    cbn [Str.rstrip]. rewrite IH.
    destruct (Str.rstrip chars t) as [|d r]; [done|].
    change (String c s +:+ String d r) with (String c (s +:+ String d r)).
    by destruct s.
Qed.

(** A name that ends in a character outside the set is left as it is. *)
Lemma rstrip_kept chars s c :
  Str.mem c chars = false →
  Str.rstrip chars (s +:+ String c EmptyString) = s +:+ String c EmptyString.
Proof.
  intros Hc. rewrite rstrip_app. cbn [Str.rstrip]. by rewrite Hc.
Qed.

(** Where the two strippings do remove the marker: the part of the name
    before the marker ends in a character that is in neither set. *)
Lemma looked_up_name_marker s c :
  Str.mem c "_gpuc" = false →
  looked_up_name ((s +:+ String c EmptyString) +:+ "_gpu")
  = s +:+ String c EmptyString
  ∧ looked_up_name ((s +:+ String c EmptyString) +:+ "_cpu")
    = s +:+ String c EmptyString.
Proof.
  intros Hc.
  assert (Hg : Str.mem c "_gpu" = false).
  { cbn [Str.mem] in *. repeat (apply orb_false_elim in Hc as [? Hc]).
    by repeat (apply orb_false_intro; [done|]). }
  assert (Hp : Str.mem c "_cpu" = false).
  { cbn [Str.mem] in *. repeat (apply orb_false_elim in Hc as [? Hc]).
    by repeat (apply orb_false_intro; [done|]). }
  unfold looked_up_name. split.
  - rewrite (rstrip_app "_gpu"). change (Str.rstrip "_gpu" "_gpu") with EmptyString.
    cbv iota. by rewrite !rstrip_kept.
  - rewrite (rstrip_app "_gpu"). change (Str.rstrip "_gpu" "_cpu") with "_c".
    cbv iota. rewrite (rstrip_app "_cpu").
    change (Str.rstrip "_cpu" "_c") with EmptyString. cbv iota.
    by rewrite rstrip_kept.
Qed.

Example looked_up_name_marker_sample :
  looked_up_name "def-prof_gpu" = "def-prof"
  ∧ looked_up_name "def-prof_cpu" = "def-prof".
Proof. exact (looked_up_name_marker "def-pro" "f" eq_refl). Qed.

(** The part of C1 that the code does: the quota key is chosen by the
    ['_gpu'] ending, and the value returned is that of the first
    aggregated allocation, under the looked-up name, that has the key. *)
Lemma slurm_account_dispatch objects convert account :
  compute_allocations_by_slurm_account objects convert account
  = match first_quota (quota_key account)
            (compute_allocation_by_account objects convert
               (looked_up_name account)) with
    | Some v => v
    | None => PyNone
    end.
Proof.
  unfold compute_allocations_by_slurm_account, quota_key, looked_up_name.
  by destruct (Str.endswith account "_gpu").
Qed.

(** The code and the worded look-up agree on every account name whose
    two strippings leave exactly the name without its marker. *)
Lemma slurm_account_agrees objects convert account :
  looked_up_name account = marker_removed account →
  compute_allocations_by_slurm_account objects convert account
  = spec_allocations_by_slurm_account objects convert account.
Proof.
  intros H. rewrite slurm_account_dispatch.
  unfold spec_allocations_by_slurm_account. by rewrite H.
Qed.

(** C10 -- [compute_allocations_by_slurm_account] returns [None] whenever
    no aggregated allocation under the looked-up name has the selected
    quota key (['gpu'] for a name ending in ['_gpu'], ['cpu'] otherwise);
    in particular when the directory has no active record of that name
    and the aggregation of no record is empty. *)
Theorem slurm_account_none (objects : list LdapAllocation)
    (convert : list LdapAllocation → list (gmap string pyval))
    (account : string) :
  ((∀ alloc,
      alloc ∈ compute_allocation_by_account objects convert
                (looked_up_name account) →
      alloc !! quota_key account = None) →
   compute_allocations_by_slurm_account objects convert account = PyNone)
  ∧ (convert [] = [] →
     QuerySet.filter (Some (looked_up_name account)) None (Some "active") objects
     = [] →
     compute_allocations_by_slurm_account objects convert account = PyNone).
Proof.
  split.
  - intros H. rewrite slurm_account_dispatch.
    by rewrite (first_quota_none _ _ H).
  - intros Hc Hq. rewrite slurm_account_dispatch.
    unfold compute_allocation_by_account, QuerySet.all. by rewrite Hq, Hc.
Qed.

Lemma slurm_account_none_witness :
  compute_allocations_by_slurm_account Sample.directory Sample.convert_storage
    "def-prof_gpu" = PyNone
  ∧ compute_allocations_by_slurm_account Sample.directory Sample.convert
      "def-nobody_cpu" = PyNone.
Proof.
  split.
  - apply (proj1 (slurm_account_none Sample.directory Sample.convert_storage
                    "def-prof_gpu")).
    intros alloc Hin. vm_compute in Hin.
    apply list_elem_of_singleton in Hin. subst alloc. reflexivity.
  - apply (proj2 (slurm_account_none Sample.directory Sample.convert
                    "def-nobody_cpu")); reflexivity.
Defined.

(** C1 -- the code at the account name ['def-group_gpu']: the two
    [rstrip] calls remove trailing characters of the sets [_gpu] and
    [_cpu], not the marker, so the look-up is made under ['def-gro'] and
    the result is [None], where the name without its marker,
    ['def-group'], has an aggregated allocation with four GPUs. *)
Theorem slurm_account_rstrip_divergence :
  looked_up_name "def-group_gpu" = "def-gro"
  ∧ marker_removed "def-group_gpu" = "def-group"
  ∧ compute_allocations_by_slurm_account Sample.directory Sample.convert
      "def-group_gpu" = PyNone
  ∧ spec_allocations_by_slurm_account Sample.directory Sample.convert
      "def-group_gpu" = PyInt 4.
Proof. split_and!; reflexivity. Qed.

(** ** The Prometheus wrapper *)

Lemma comprehension_ok {A B} (f : A → result B) (l : list A) (bs : list B) :
  comprehension f l = Ok bs → Forall2 (fun a b => f a = Ok b) l bs.
Proof.
  revert bs. induction l as [|a l IH]; intros bs; simpl.
  - intros [= <-]. constructor.
  - destruct (f a) as [b|e] eqn:Hf; simpl; [|done].
    destruct (comprehension f l) as [bs'|e]; simpl; [|done].
    intros [= <-]. constructor; [done|by apply IH].
Qed.

Lemma comprehension_total {A B} (f : A → result B) (l : list A) :
  (∀ a, a ∈ l → is_raise (f a) = false) → ∃ bs, comprehension f l = Ok bs.
Proof.
  induction l as [|a l IH]; intros H; simpl; [by eexists|].
  pose proof (H a (list_elem_of_here _ _)) as Ha.
  destruct (f a) as [b|e]; [|done].
  destruct IH as [bs ->]; [|by eexists].
  intros a' Hin. apply H. by apply list_elem_of_further.
Qed.

(** The first failing conversion ends the comprehension with its error. *)
Lemma comprehension_raise {A B} (f : A → result B) (l1 : list A) a l2 e :
  (∀ a', a' ∈ l1 → is_raise (f a') = false) → f a = Raise e →
  comprehension f (l1 ++ a :: l2) = Raise e.
Proof.
  induction l1 as [|a1 l1 IH]; intros H Ha; simpl.
  - by rewrite Ha.
  - pose proof (H a1 (list_elem_of_here _ _)) as H1.
    destruct (f a1); [|done]. simpl. rewrite IH; [done| |done].
    intros a' Hin. apply H. by apply list_elem_of_further.
Qed.

Section MetricsFacts.

Context {timestamp datetime pyfloat : Type}.
Variable fromtimestamp : timestamp → result datetime.
Variable float : string → result pyfloat.
Variable now : datetime.

Lemma normalize_ok line entry :
  normalize fromtimestamp float line = Ok entry → normalized fromtimestamp float line entry.
Proof.
  unfold normalize, normalized.
  destruct (comprehension (fun p => fromtimestamp p.1) (raw_values line))
    as [xs|e] eqn:Hx; simpl; [|done].
  destruct (comprehension (fun p => float p.2) (raw_values line))
    as [ys|e] eqn:Hy; simpl; [|done].
  intros [= <-]. simpl.
  apply comprehension_ok in Hx, Hy. split_and!; [done..|].
  apply Forall2_length in Hx, Hy. congruence.
Qed.

Lemma normalize_total line :
  convertible fromtimestamp float line → ∃ entry, normalize fromtimestamp float line = Ok entry.
Proof.
  intros H. unfold normalize.
  destruct (comprehension_total (fun p => fromtimestamp p.1) (raw_values line))
    as [xs ->]; [intros p Hp; by apply H|].
  destruct (comprehension_total (fun p => float p.2) (raw_values line))
    as [ys ->]; [intros p Hp; by apply H|].
  by eexists.
Qed.

Lemma multiple_loop_acc return_list q :
  multiple_loop fromtimestamp float return_list q
  = out ← comprehension (normalize fromtimestamp float) q;
    Ok (return_list ++ out)%list.
Proof.
  revert return_list. induction q as [|line q IH]; intros return_list; simpl.
  - by rewrite app_nil_r.
  - destruct (normalize _ _ line) as [entry|e]; simpl; [|done].
    rewrite IH.
    destruct (comprehension _ q) as [out|e]; simpl; [|done].
    by rewrite <- app_assoc.
Qed.

Lemma multiple_loop_ok q out :
  multiple_loop fromtimestamp float [] q = Ok out → Forall2 (normalized fromtimestamp float) q out.
Proof.
  rewrite multiple_loop_acc.
  destruct (comprehension _ q) as [out'|e] eqn:Hc; simpl; [|done].
  intros [= <-]. apply comprehension_ok in Hc.
  eapply Forall2_impl; [exact Hc|]. intros line entry. apply normalize_ok.
Qed.

Lemma multiple_loop_total q :
  (∀ line, line ∈ q → convertible fromtimestamp float line) →
  ∃ out, multiple_loop fromtimestamp float [] q = Ok out.
Proof.
  intros H. rewrite multiple_loop_acc.
  destruct (comprehension_total (normalize fromtimestamp float) q) as [out ->].
  - intros line Hin. destruct (normalize_total line (H line Hin)) as [e ->]. done.
  - by eexists.
Qed.

(** C7 -- [query_prometheus_multiple]: for every answer of the backend
    to the range query whose raw pairs all convert, the result has one
    entry per raw series, in the same order; each entry has the labels
    of its series unchanged, the timestamps converted to [datetime] in
    [x] and the values converted to floats in [y], both as long as and
    in the order of the raw pairs. *)
Theorem query_prometheus_multiple_spec (self : Prometheus timestamp datetime)
    (query : string) (start : datetime) (end_ : option datetime)
    (step : string) (q : list (raw_series timestamp)) :
  custom_query_range (prom self) query start (default now end_) step = Ok q →
  (∀ line, line ∈ q → convertible fromtimestamp float line) →
  ∃ out,
    query_prometheus_multiple fromtimestamp float now self query start end_ step
    = Ok out
    ∧ length out = length q
    ∧ Forall2 (normalized fromtimestamp float) q out.
Proof.
  intros Hq Hconv. unfold query_prometheus_multiple.
  replace (match end_ with Some e => e | None => now end) with (default now end_)
    by by destruct end_.
  rewrite Hq. simpl.
  destruct (multiple_loop_total q Hconv) as [out Hout].
  exists out. split; [done|].
  apply multiple_loop_ok in Hout. split; [|done].
  symmetry. by eapply Forall2_length.
Qed.

(** C5, amended -- [query_prometheus] raises if and only if the
    multi-series query with the same arguments raises or returns no
    series: an exception of the multi-series query is raised unchanged,
    and a list without series gives [ValueError]; with at least one series
    returned it raises nothing and returns a value. *)
Theorem query_prometheus_raises_spec (self : Prometheus timestamp datetime)
    (query : string) (duration : datetime) (end_ : option datetime)
    (step : string) :
  let m :=
    query_prometheus_multiple fromtimestamp float now self query duration end_ step in
  let r := query_prometheus fromtimestamp float now self query duration end_ step in
  (is_raise r = true ↔ is_raise m = true ∨ m = Ok [])
  ∧ (∀ e, m = Raise e → r = Raise e)
  ∧ (m = Ok [] → r = Raise ValueError)
  ∧ (∀ v vs, m = Ok (v :: vs) → ∃ xy, r = Ok xy).
Proof.
  cbv zeta. unfold query_prometheus.
  destruct (query_prometheus_multiple _ _ _ _ _ _ _ _) as [[|v vs]|e]; simpl.
  - split_and!; [|done..]. split; [by right|done].
  - split_and!; [|done|done|by eexists].
    split; [done|]. by intros [?|?].
  - split_and!; [|by intros ? [= <-]|done..]. split; [by left|done].
Qed.

(** C9 -- [query_prometheus]: when the multi-series query returns at
    least one series, the result is the pair of the [x] and [y] of the
    first one; its labels and the other series are not part of it. *)
Theorem query_prometheus_first_series (self : Prometheus timestamp datetime)
    (query : string) (duration : datetime) (end_ : option datetime)
    (step : string) (v : series datetime pyfloat)
    (vs : list (series datetime pyfloat)) :
  query_prometheus_multiple fromtimestamp float now self query duration end_ step
  = Ok (v :: vs) →
  query_prometheus fromtimestamp float now self query duration end_ step
  = Ok (x v, y v).
Proof.
  intros Hm. unfold query_prometheus. by rewrite Hm.
Qed.

(** An exception of the multi-series query is the exception of the
    single-series query. *)
Lemma query_prometheus_propagates (self : Prometheus timestamp datetime)
    (query : string) (duration : datetime) (end_ : option datetime)
    (step : string) (e : exn) :
  query_prometheus_multiple fromtimestamp float now self query duration end_ step
  = Raise e →
  query_prometheus fromtimestamp float now self query duration end_ step
  = Raise e.
Proof.
  intros Hm. unfold query_prometheus. by rewrite Hm.
Qed.

End MetricsFacts.

Example query_prometheus_multiple_sample :
  query_prometheus_multiple SampleMetrics.fromtimestamp SampleMetrics.float
    SampleMetrics.now SampleMetrics.self "cpu_usage" 1699999000 None "3m"
  = Ok [SampleMetrics.node1_entry; SampleMetrics.node2_entry].
Proof. reflexivity. Qed.

Lemma query_prometheus_multiple_spec_witness :
  ∃ out,
    query_prometheus_multiple SampleMetrics.fromtimestamp SampleMetrics.float
      SampleMetrics.now SampleMetrics.self "cpu_usage" 1699999000 None "3m"
    = Ok out
    ∧ length out = 2%nat
    ∧ Forall2 (normalized SampleMetrics.fromtimestamp SampleMetrics.float)
        [SampleMetrics.node1; SampleMetrics.node2] out.
Proof.
  apply (query_prometheus_multiple_spec SampleMetrics.fromtimestamp
           SampleMetrics.float SampleMetrics.now SampleMetrics.self
           "cpu_usage" 1699999000 None "3m"
           [SampleMetrics.node1; SampleMetrics.node2]).
  - reflexivity.
  - intros line Hl p Hp.
    apply elem_of_cons in Hl as [->|Hl];
      [|apply list_elem_of_singleton in Hl as ->].
    + apply elem_of_cons in Hp as [->|Hp];
        [|apply list_elem_of_singleton in Hp as ->]; split; reflexivity.
    + apply list_elem_of_singleton in Hp as ->. split; reflexivity.
Defined.

(** C5, as stated, fails: when the backend refuses the connection the
    multi-series query raises, so it returns no list of series at all, and
    the single-series query raises that same error. *)
Lemma query_prometheus_stated_fails :
  query_prometheus_multiple SampleMetrics.fromtimestamp SampleMetrics.float
    SampleMetrics.now SampleUsers.down_self "cpu_usage" 1699999000 None "3m"
  = Raise (OtherError "connection refused")
  ∧ query_prometheus SampleMetrics.fromtimestamp SampleMetrics.float
      SampleMetrics.now SampleUsers.down_self "cpu_usage" 1699999000 None "3m"
    = Raise (OtherError "connection refused")
  ∧ ¬ query_prometheus_stated SampleMetrics.fromtimestamp SampleMetrics.float
        SampleMetrics.now SampleUsers.down_self "cpu_usage" 1699999000 None "3m".
Proof.
  split_and!; [reflexivity|reflexivity|].
  intros [[H _] _].
  assert (Hm : query_prometheus_multiple SampleMetrics.fromtimestamp
                 SampleMetrics.float SampleMetrics.now SampleUsers.down_self
                 "cpu_usage" 1699999000 None "3m" = Ok [])
    by (apply H; reflexivity).
  vm_compute in Hm. discriminate Hm.
Qed.

Lemma query_prometheus_raises_spec_witness :
  query_prometheus SampleMetrics.fromtimestamp SampleMetrics.float
    SampleMetrics.now SampleMetrics.self "absent" 1699999000 None "3m"
  = Raise ValueError
  ∧ query_prometheus SampleMetrics.fromtimestamp SampleMetrics.float
      SampleMetrics.now SampleUsers.down_self "cpu_usage" 1699999000 None "3m"
    = Raise (OtherError "connection refused")
  ∧ ∃ xy,
      query_prometheus SampleMetrics.fromtimestamp SampleMetrics.float
        SampleMetrics.now SampleMetrics.self "cpu_usage" 1699999000 None "3m"
      = Ok xy.
Proof.
  split_and!.
  - apply (proj1 (proj2 (proj2 (query_prometheus_raises_spec
             SampleMetrics.fromtimestamp SampleMetrics.float SampleMetrics.now
             SampleMetrics.self "absent" 1699999000 None "3m")))).
    reflexivity.
  - apply (proj1 (proj2 (query_prometheus_raises_spec
             SampleMetrics.fromtimestamp SampleMetrics.float SampleMetrics.now
             SampleUsers.down_self "cpu_usage" 1699999000 None "3m"))
             (OtherError "connection refused")).
    reflexivity.
  - apply (proj2 (proj2 (proj2 (query_prometheus_raises_spec
             SampleMetrics.fromtimestamp SampleMetrics.float SampleMetrics.now
             SampleMetrics.self "cpu_usage" 1699999000 None "3m")))
             SampleMetrics.node1_entry [SampleMetrics.node2_entry]).
    reflexivity.
Defined.

Lemma query_prometheus_first_series_witness :
  query_prometheus SampleMetrics.fromtimestamp SampleMetrics.float
    SampleMetrics.now SampleMetrics.self "cpu_usage" 1699999000 None "3m"
  = Ok ([1699999640; 1699999820], [12; 15]).
Proof.
  apply (query_prometheus_first_series SampleMetrics.fromtimestamp
           SampleMetrics.float SampleMetrics.now SampleMetrics.self
           "cpu_usage" 1699999000 None "3m"
           SampleMetrics.node1_entry [SampleMetrics.node2_entry]).
  reflexivity.
Defined.

(** A value that is not a number ends the multi-series query with the
    error of the conversion. *)
Example query_prometheus_multiple_bad_value :
  multiple_loop SampleMetrics.fromtimestamp SampleMetrics.float []
    [SampleMetrics.node2;
     {| raw_metric := ∅; raw_values := [(1699999640, "n/a")] |}]
  = Raise ValueError.
Proof. reflexivity. Qed.

(** * Further properties of the module *)

(** ** The decorators *)

Lemma before_first_absent sep s :
  Str.mem sep s = false → before_first sep s = s.
Proof.
  induction s as [|c s IH]; simpl; [done|].
  intros [Hc Hs]%orb_false_elim.
  destruct (Ascii.eqb_spec c sep) as [->|_].
  - by rewrite Ascii.eqb_refl in Hc.
  - by rewrite IH.
Qed.

Lemma before_first_app sep s rest :
  Str.mem sep s = false → before_first sep (s +:+ String sep rest) = s.
Proof.
  induction s as [|c s IH]; intros Hm.
  - change (EmptyString +:+ String sep rest) with (String sep rest).
    simpl. by rewrite Ascii.eqb_refl.
  - change (String c s +:+ String sep rest) with (String c (s +:+ String sep rest)).
    simpl in Hm. apply orb_false_elim in Hm as [Hc Hs].
    simpl. destruct (Ascii.eqb_spec c sep) as [->|_].
    + by rewrite Ascii.eqb_refl in Hc.
    + by rewrite IH.
Qed.

(** X1 -- whichever of the four decorators is used, a wrapper that invokes
    the wrapped view invokes it once, with the request, the positional and
    the keyword arguments it received, and returns or raises what the view
    returned or raised. *)
Theorem wrappers_pass_through (objects : list LdapAllocation) (func : view)
    (request : HttpRequest) (args : list string) (kwargs : gmap string string)
    (r : traced HttpResponse) :
  r = user_or_staff func request args kwargs
  ∨ r = account_or_staff objects func request args kwargs
  ∨ r = openstackproject_or_staff func request args kwargs
  ∨ r = staff func request args kwargs →
  invoked r = true →
  r = ([Call request args kwargs], func request args kwargs).
Proof.
  intros [-> | [-> | [-> | ->]]].
  - unfold user_or_staff.
    destruct (kwargs !! "username") as [u|]; [|done].
    destruct (String.eqb _ u); [done|].
    by destruct (is_staff (META request)).
  - unfold account_or_staff.
    destruct (kwargs !! "account") as [account|]; [|done].
    rewrite split_index_0.
    destruct (is_staff (META request)); [done|].
    by destruct (QuerySet.filter _ _ _ objects) as [|a [|b l]].
  - unfold openstackproject_or_staff. by destruct (is_staff (META request)).
  - unfold staff. by destruct (is_staff (META request)).
Qed.

Lemma wrappers_pass_through_witness :
  account_or_staff Sample.directory Sample.ok_view Sample.alice ["cpu"]
    Sample.kw_account
  = ([Call Sample.alice ["cpu"] Sample.kw_account],
     Sample.ok_view Sample.alice ["cpu"] Sample.kw_account).
Proof.
  apply (wrappers_pass_through Sample.directory Sample.ok_view Sample.alice
           ["cpu"] Sample.kw_account).
  - right; left. reflexivity.
  - reflexivity.
Defined.

(** X2 -- a staff requester is admitted by each of the four decorators,
    whatever the directory holds and whoever the subject user is, provided
    the keyword argument that the decorator reads is there. *)
Theorem staff_is_admitted (objects : list LdapAllocation) (func : view)
    (request : HttpRequest) (args : list string) (kwargs : gmap string string) :
  is_staff (META request) = true →
  (is_Some (kwargs !! "username") →
   user_or_staff func request args kwargs = invoke func request args kwargs)
  ∧ (is_Some (kwargs !! "account") →
     account_or_staff objects func request args kwargs
     = invoke func request args kwargs)
  ∧ openstackproject_or_staff func request args kwargs
    = invoke func request args kwargs
  ∧ staff func request args kwargs = invoke func request args kwargs.
Proof.
  intros Hs. split_and!.
  - intros [u Hu]. unfold user_or_staff. rewrite Hu, Hs.
    by destruct (String.eqb _ u).
  - intros [a Ha]. unfold account_or_staff.
    by rewrite Ha, split_index_0, Hs.
  - unfold openstackproject_or_staff. by rewrite Hs.
  - unfold staff. by rewrite Hs.
Qed.

Lemma staff_is_admitted_witness :
  is_staff (META Sample.admin) = true
  ∧ account_or_staff Sample.duplicated Sample.ok_view Sample.admin []
      Sample.kw_account
    = invoke Sample.ok_view Sample.admin [] Sample.kw_account.
Proof.
  split; [reflexivity|].
  apply (proj1 (proj2 (staff_is_admitted Sample.duplicated Sample.ok_view
                         Sample.admin [] Sample.kw_account eq_refl))).
  exists "def-prof_cpu". reflexivity.
Defined.

(** X3 -- a view decorated with [user_or_staff] that is called without a
    ['username'] keyword argument, or one decorated with
    [account_or_staff] called without ['account'], raises [KeyError] for
    that key; the wrapped view is not invoked, not even for staff. *)
Theorem missing_keyword_raises (objects : list LdapAllocation) (func : view)
    (request : HttpRequest) (args : list string) (kwargs : gmap string string) :
  (kwargs !! "username" = None →
   user_or_staff func request args kwargs = ([], Raise (KeyError "username")))
  ∧ (kwargs !! "account" = None →
     account_or_staff objects func request args kwargs
     = ([], Raise (KeyError "account"))).
Proof.
  split; intros H.
  - unfold user_or_staff. by rewrite H.
  - unfold account_or_staff. by rewrite H.
Qed.

Lemma missing_keyword_raises_witness :
  is_staff (META Sample.admin) = true
  ∧ account_or_staff Sample.directory Sample.ok_view Sample.admin []
      Sample.kw_username = ([], Raise (KeyError "account"))
  ∧ user_or_staff Sample.ok_view Sample.admin [] Sample.kw_account
    = ([], Raise (KeyError "username")).
Proof.
  split; [reflexivity|]. split.
  - apply (proj2 (missing_keyword_raises Sample.directory Sample.ok_view
                    Sample.admin [] Sample.kw_username)).
    reflexivity.
  - apply (proj1 (missing_keyword_raises Sample.directory Sample.ok_view
                    Sample.admin [] Sample.kw_account)).
    reflexivity.
Defined.

(** X4 -- [staff]: the wrapped view is invoked exactly for staff
    requesters; any other requester gets the not-found response, whatever
    the arguments. *)
Theorem staff_spec (func : view) (request : HttpRequest) (args : list string)
    (kwargs : gmap string string) :
  (invoked (staff func request args kwargs) = true
   ↔ is_staff (META request) = true)
  ∧ (is_staff (META request) = false →
     staff func request args kwargs = ([], Ok HttpResponseNotFound)).
Proof.
  unfold staff. destruct (is_staff (META request)); simpl.
  - by split_and!.
  - split_and!; [|done]. by split.
Qed.

Lemma staff_spec_witness :
  staff Sample.ok_view Sample.alice [] ∅ = ([], Ok HttpResponseNotFound).
Proof.
  apply (proj2 (staff_spec Sample.ok_view Sample.alice [] ∅)). reflexivity.
Defined.

(** X5 -- [account_or_staff] reads the account up to its first ['_'] only:
    a request for ['<name>_<anything>'] is decided as the request for
    ['<name>'] is, and when the view is not invoked the two outcomes are
    the same. *)
Theorem account_suffix_ignored (objects : list LdapAllocation) (func : view)
    (request : HttpRequest) (args : list string)
    (kwargs kwargs' : gmap string string) (stem suffix : string) :
  Str.mem "_" stem = false →
  kwargs !! "account" = Some (stem +:+ String "_" suffix) →
  kwargs' !! "account" = Some stem →
  let r := account_or_staff objects func request args kwargs in
  let r' := account_or_staff objects func request args kwargs' in
  invoked r = invoked r' ∧ (invoked r = false → r = r').
Proof.
  intros Hm Hk Hk'. cbv zeta. unfold account_or_staff.
  rewrite Hk, Hk', !split_index_0.
  rewrite (before_first_app _ _ _ Hm), (before_first_absent _ _ Hm).
  destruct (is_staff (META request)); [done|].
  by destruct (QuerySet.filter _ _ _ objects) as [|a [|b l]].
Qed.

Lemma account_suffix_ignored_witness :
  invoked (account_or_staff Sample.directory Sample.ok_view Sample.alice []
             Sample.kw_account)
  = invoked (account_or_staff Sample.directory Sample.ok_view Sample.alice []
               {[ "account" := "def-prof" ]}).
Proof.
  apply (account_suffix_ignored Sample.directory Sample.ok_view Sample.alice []
           Sample.kw_account {[ "account" := "def-prof" ]} "def-prof" "cpu");
    reflexivity.
Defined.

(** ** Allocation look-ups *)

Lemma append_cons c s t : String c s +:+ t = String c (s +:+ t).
Proof. reflexivity. Qed.

Lemma append_assoc s t u : (s +:+ t) +:+ u = s +:+ (t +:+ u).
Proof.
  induction s as [|c s IH]; [done|]. rewrite !append_cons. by f_equal.
Qed.

Lemma append_last_nonempty s c : s +:+ String c EmptyString ≠ EmptyString.
Proof. by destruct s. Qed.

(** What [rstrip] leaves does not end in a character of the set. *)
Lemma rstrip_last chars x s c :
  Str.rstrip chars x = s +:+ String c EmptyString → Str.mem c chars = false.
Proof.
  revert s. induction x as [|a x IH]; intros s; cbn [Str.rstrip].
  - intros H. symmetry in H. by apply append_last_nonempty in H.
  - destruct (Str.rstrip chars x) as [|d r].
    + destruct (Str.mem a chars) eqn:Ha.
      * intros H. symmetry in H. by apply append_last_nonempty in H.
      * destruct s as [|b s]; [by intros [= <-]|].
        rewrite append_cons. intros [= _ H].
        symmetry in H. by apply append_last_nonempty in H.
    + destruct s as [|b s]; [done|].
      rewrite append_cons. intros [= _ H]. by apply (IH s).
Qed.

Lemma all_in_weaken chars chars' :
  (∀ d, Str.mem d chars = true → Str.mem d chars' = true) →
  ∀ t, all_in chars t = true → all_in chars' t = true.
Proof.
  intros Hw t. induction t as [|a t IH]; simpl; [done|].
  intros [Ha Ht]%andb_true_iff. by rewrite (Hw a Ha), IH.
Qed.

Lemma all_in_app chars t u :
  all_in chars t = true → all_in chars u = true →
  all_in chars (t +:+ u) = true.
Proof.
  induction t as [|a t IH]; [done|]. rewrite append_cons. simpl.
  intros [Ha Ht]%andb_true_iff Hu. by rewrite Ha, IH.
Qed.

(** [rstrip] removes an ending made of characters of the set. *)
Lemma rstrip_prefix chars x :
  ∃ t, x = Str.rstrip chars x +:+ t ∧ all_in chars t = true.
Proof.
  induction x as [|a x (t & Hx & Ht)]; [by exists EmptyString|].
  cbn [Str.rstrip]. destruct (Str.rstrip chars x) as [|d r].
  - change (EmptyString +:+ t) with t in Hx. subst x.
    destruct (Str.mem a chars) eqn:Ha.
    + exists (String a t). split; [done|]. simpl. by rewrite Ha.
    + exists t. by split.
  - exists t. split; [|done]. rewrite append_cons. by f_equal.
Qed.

(** X6 -- the name under which [compute_allocations_by_slurm_account]
    looks allocations up never ends in ['_'], ['c'], ['p'] or ['u']: an
    allocation whose name ends in one of these characters is looked up for
    no account name at all. *)
Theorem looked_up_name_never_ends_in (account s : string) (c : ascii) :
  Str.mem c "_cpu" = true →
  looked_up_name account ≠ s +:+ String c EmptyString.
Proof.
  intros Hc H. unfold looked_up_name in H.
  apply rstrip_last in H. congruence.
Qed.

Lemma looked_up_name_never_ends_in_witness :
  Str.mem "p" "_cpu" = true ∧ looked_up_name "def-group_gpu" ≠ "def-group".
Proof.
  split; [reflexivity|].
  apply (looked_up_name_never_ends_in "def-group_gpu" "def-grou" "p").
  reflexivity.
Defined.

(** X7 -- the looked-up name is the account name without an ending, and
    that ending is made of the characters ['_'], ['g'], ['p'], ['u'] and
    ['c'] only: the two strippings remove nothing else and nothing inside
    the name. *)
Theorem looked_up_name_prefix (account : string) :
  ∃ ending,
    account = looked_up_name account +:+ ending
    ∧ all_in "_gpuc" ending = true.
Proof.
  unfold looked_up_name.
  destruct (rstrip_prefix "_gpu" account) as (t1 & H1 & Ht1).
  destruct (rstrip_prefix "_cpu" (Str.rstrip "_gpu" account)) as (t2 & H2 & Ht2).
  exists (t2 +:+ t1). split.
  - rewrite <- append_assoc, <- H2. exact H1.
  - apply all_in_app.
    + apply (all_in_weaken "_cpu"); [|done].
      intros d. cbn [Str.mem]. rewrite !orb_true_iff. tauto.
    + apply (all_in_weaken "_gpu"); [|done].
      intros d. cbn [Str.mem]. rewrite !orb_true_iff. tauto.
Qed.

(** X8 -- for an account ['<name>_gpu'] or ['<name>_cpu'] whose name has no
    ['_'] and ends in a character other than ['g'], ['p'], ['u'] and
    ['c'], the allocation name that [account_or_staff] checks membership
    of and the name that [compute_allocations_by_slurm_account] looks up
    are the same: the name itself. *)
Theorem checked_name_is_looked_up_name (s : string) (c : ascii) (account : string) :
  Str.mem "_" (s +:+ String c EmptyString) = false →
  Str.mem c "_gpuc" = false →
  account = (s +:+ String c EmptyString) +:+ "_gpu"
  ∨ account = (s +:+ String c EmptyString) +:+ "_cpu" →
  Str.index (Str.split "_" account) 0 = Ok (s +:+ String c EmptyString)
  ∧ looked_up_name account = s +:+ String c EmptyString.
Proof.
  intros Hu Hc Hacc. rewrite split_index_0.
  destruct (looked_up_name_marker s c Hc) as [Hg Hp].
  destruct Hacc as [-> | ->].
  - split; [|done]. f_equal. by apply (before_first_app "_" _ "gpu").
  - split; [|done]. f_equal. by apply (before_first_app "_" _ "cpu").
Qed.

Lemma checked_name_is_looked_up_name_witness :
  Str.index (Str.split "_" "def-prof_gpu") 0 = Ok "def-prof"
  ∧ looked_up_name "def-prof_gpu" = "def-prof".
Proof.
  apply (checked_name_is_looked_up_name "def-pro" "f" "def-prof_gpu");
    [reflexivity|reflexivity|left; reflexivity].
Defined.

(** X9 -- [compute_allocations_by_slurm_account] returns the value that
    the first aggregated allocation (under the looked-up name) holding the
    selected key has for it; allocations after it are not read. *)
Theorem slurm_account_first_match (objects : list LdapAllocation)
    (convert : list LdapAllocation → list (gmap string pyval))
    (account : string) (before rest : list (gmap string pyval))
    (alloc : gmap string pyval) (v : pyval) :
  compute_allocation_by_account objects convert (looked_up_name account)
  = (before ++ alloc :: rest)%list →
  (∀ alloc', alloc' ∈ before → alloc' !! quota_key account = None) →
  alloc !! quota_key account = Some v →
  compute_allocations_by_slurm_account objects convert account = v.
Proof.
  intros Hl Hb Hv. rewrite slurm_account_dispatch, Hl.
  by rewrite (first_quota_some _ _ _ _ _ Hb Hv).
Qed.

Lemma slurm_account_first_match_witness :
  compute_allocations_by_slurm_account Sample.duplicated
    SampleUsers.convert_mixed "def-prof_gpu" = PyInt 4.
Proof.
  apply (slurm_account_first_match Sample.duplicated SampleUsers.convert_mixed
           "def-prof_gpu"
           [<[ "name" := PyStr "def-prof" ]> ∅] []
           (<[ "name" := PyStr "def-prof" ]>
              (<[ "cpu" := PyInt 8 ]> (<[ "gpu" := PyInt 4 ]> ∅)))
           (PyInt 4)).
  - reflexivity.
  - intros alloc' Hin. apply list_elem_of_singleton in Hin. by subst alloc'.
  - reflexivity.
Defined.

(** The boolean filter of the query and the filter on the property it
    decides keep the same records, as often and in the same order. *)
Lemma list_filter_decide {A} (f : A → bool) (P : A → Prop)
    `{!∀ a, Decision (P a)} (l : list A) :
  (∀ a, f a = true ↔ P a) → List.filter f l = filter P l.
Proof.
  intros Hf. induction l as [|a l IH]; [done|].
  rewrite filter_cons. simpl. destruct (f a) eqn:Ha.
  - rewrite decide_True by by apply Hf. by f_equal.
  - rewrite decide_False; [done|]. intros HP. apply Hf in HP. congruence.
Qed.

(** X10 -- the list that [compute_allocation_by_account] hands to the
    aggregation is the directory filtered to the active records with that
    name, and the list that [compute_allocations_by_user] hands over is
    the directory filtered to the active records with that member: every
    such record, as often as the directory has it and in its order, and
    no other record. *)
Theorem aggregation_input (objects : list LdapAllocation)
    (convert : list LdapAllocation → list (gmap string pyval)) (key : string) :
  compute_allocation_by_account objects convert key
  = convert (filter (fun a => name a = key ∧ status a = "active") objects)
  ∧ compute_allocations_by_user objects convert key
    = convert (filter (fun a => key ∈ members a ∧ status a = "active") objects).
Proof.
  unfold compute_allocation_by_account, compute_allocations_by_user,
    QuerySet.all, QuerySet.filter.
  split; f_equal; apply list_filter_decide; intros a.
  - rewrite !andb_true_iff, !exact_spec, contains_spec. split.
    + intros [[Hn _] Hs]. eauto.
    + intros [<- ->]. split_and!; [by intros ? [= <-]|done|by intros ? [= <-]].
  - apply active_member_query.
Qed.

(** X11 -- a name is among the default allocations of a user exactly when
    it starts with ['def-'] and is the name of an active record of the
    directory that lists the user as a member. *)
Theorem default_allocation_names (objects : list LdapAllocation)
    (user n : string) :
  n ∈ compute_default_allocation_by_user objects user
  ↔ ∃ a, a ∈ objects ∧ name a = n ∧ user ∈ members a
         ∧ status a = "active" ∧ ∃ rest, n = "def-" +:+ rest.
Proof.
  unfold compute_default_allocation_by_user, QuerySet.all.
  rewrite default_loop_acc, app_nil_l, default_names_filter.
  rewrite list_elem_of_fmap. unfold is_default_of. split.
  - intros (a & -> & Ha). apply list_elem_of_filter in Ha as [(? & ? & Hp) ?].
    exists a. split_and!; [done..|]. by apply startswith_spec.
  - intros (a & ? & <- & ? & ? & Hp). exists a. split; [done|].
    apply list_elem_of_filter. split; [|done].
    split_and!; [done..|]. by apply startswith_spec.
Qed.

(** ** User look-ups *)

Lemma get_ok (qs : list Users.LdapUser) u :
  Users.get qs = Ok u ↔ qs = [u].
Proof.
  destruct qs as [|a [|b l]]; simpl; split; try done; by intros [= ->].
Qed.

Lemma list_filter_none {A} (f : A → bool) (l : list A) :
  (∀ x, x ∈ l → f x = false) → List.filter f l = [].
Proof.
  induction l as [|a l IH]; intros H; simpl; [done|].
  rewrite (H a) by apply list_elem_of_here.
  apply IH. intros x Hx. apply H. by apply list_elem_of_further.
Qed.

(** Where a key is unique, the filter on a value of the key keeps the one
    entry that has it. *)
Lemma filter_key_unique {A K} (key : A → K) (p : A → bool) (k : K)
    (l : list A) (r : A) :
  (∀ x, p x = true ↔ key x = k) →
  NoDup (key <$> l) → r ∈ l → key r = k → List.filter p l = [r].
Proof.
  intros Hp. induction l as [|a l IH]; intros Hnd Hin Hk.
  - by apply elem_of_nil in Hin.
  - rewrite fmap_cons in Hnd. apply NoDup_cons in Hnd as [Ha Hnd].
    simpl. apply elem_of_cons in Hin as [->|Hin].
    + rewrite (proj2 (Hp a) Hk). f_equal.
      apply list_filter_none. intros x Hx.
      destruct (p x) eqn:Hx'; [|done].
      apply Hp in Hx'. exfalso. apply Ha.
      rewrite Hk, <- Hx'. by apply list_elem_of_fmap_2.
    + destruct (p a) eqn:Hpa.
      * apply Hp in Hpa. exfalso. apply Ha.
        rewrite Hpa, <- Hk. by apply list_elem_of_fmap_2.
      * by apply IH.
Qed.

Lemma by_username_spec name (u : Users.LdapUser) :
  exact (Some name) (Users.username u) && Users.exact_uid None (Users.uid u) = true
  ↔ Users.username u = name.
Proof. simpl. rewrite andb_true_r. apply String.eqb_eq. Qed.

Lemma by_uid_spec n (u : Users.LdapUser) :
  exact None (Users.username u) && Users.exact_uid (Some n) (Users.uid u) = true
  ↔ Users.uid u = n.
Proof. simpl. apply Z.eqb_eq. Qed.

Lemma list_filter_singleton {A} (f : A → bool) (l : list A) (r : A) :
  List.filter f l = [r] → r ∈ l ∧ f r = true.
Proof.
  intros H. assert (Hin : In r (List.filter f l)) by (rewrite H; by left).
  apply filter_In in Hin as [? ?]. by rewrite list_elem_of_In.
Qed.

(** X12 -- [username_to_uid] returns the uid of the entry with that
    username when there is exactly one; it raises [DoesNotExist] when
    there is none and [MultipleObjectsReturned] when there are several. *)
Theorem username_to_uid_spec (objects : list Users.LdapUser) (name : string) :
  let found := Users.filter (Some name) None objects in
  (∀ u, u ∈ found ↔ u ∈ objects ∧ Users.username u = name)
  ∧ (found = [] → username_to_uid objects name = Raise DoesNotExist)
  ∧ (∀ u, found = [u] → username_to_uid objects name = Ok (Users.uid u))
  ∧ ((2 ≤ length found)%nat →
     username_to_uid objects name = Raise MultipleObjectsReturned).
Proof.
  cbv zeta. unfold username_to_uid. split_and!.
  - intros u. unfold Users.filter.
    rewrite !list_elem_of_In, filter_In, by_username_spec. done.
  - by intros ->.
  - by intros u ->.
  - destruct (Users.filter _ _ objects) as [|a [|b l]]; simpl; [lia|lia|done].
Qed.

Lemma username_to_uid_spec_witness :
  username_to_uid SampleUsers.directory "bob" = Ok 3002
  ∧ username_to_uid SampleUsers.directory "dave" = Raise DoesNotExist.
Proof.
  split.
  - apply (proj1 (proj2 (proj2 (username_to_uid_spec SampleUsers.directory "bob")))
             SampleUsers.bob).
    reflexivity.
  - apply (proj1 (proj2 (username_to_uid_spec SampleUsers.directory "dave"))).
    reflexivity.
Defined.

(** X13 -- in a directory where no two entries share a username and no two
    share a uid, [username_to_uid] and [uid_to_username] are inverse of
    each other. *)
Theorem user_lookups_inverse (objects : list Users.LdapUser)
    (name : string) (n : Z) :
  NoDup (Users.username <$> objects) →
  NoDup (Users.uid <$> objects) →
  username_to_uid objects name = Ok n ↔ uid_to_username objects n = Ok name.
Proof.
  intros Hnames Huids. unfold username_to_uid, uid_to_username, Users.filter.
  split.
  - destruct (Users.get _) as [u|e] eqn:Hg; simpl; [|done].
    intros [= <-]. apply get_ok, list_filter_singleton in Hg as [Hin Hu].
    apply by_username_spec in Hu.
    rewrite (filter_key_unique Users.uid _ (Users.uid u) objects u);
      [simpl; by rewrite Hu|apply by_uid_spec|done..].
  - destruct (Users.get _) as [u|e] eqn:Hg; simpl; [|done].
    intros [= <-]. apply get_ok, list_filter_singleton in Hg as [Hin Hu].
    apply by_uid_spec in Hu.
    rewrite (filter_key_unique Users.username _ (Users.username u) objects u);
      [simpl; by rewrite Hu|apply by_username_spec|done..].
Qed.

Lemma user_lookups_inverse_witness :
  username_to_uid SampleUsers.directory "carol" = Ok 3003
  ↔ uid_to_username SampleUsers.directory 3003 = Ok "carol".
Proof.
  apply (user_lookups_inverse SampleUsers.directory "carol" 3003).
  - apply (bool_decide_unpack _). vm_compute. exact I.
  - apply (bool_decide_unpack _). vm_compute. exact I.
Defined.

(** X14 -- without any assumption on the directory, the uid that
    [username_to_uid] returns is never unknown to [uid_to_username] and is
    never mapped to another username: the way back gives the username, or
    raises [MultipleObjectsReturned] when another entry has the same uid. *)
Theorem uid_maps_back (objects : list Users.LdapUser) (name : string) (n : Z) :
  username_to_uid objects name = Ok n →
  uid_to_username objects n = Ok name
  ∨ uid_to_username objects n = Raise MultipleObjectsReturned.
Proof.
  unfold username_to_uid, uid_to_username, Users.filter.
  destruct (Users.get _) as [u|e] eqn:Hg; simpl; [|done].
  intros [= <-]. apply get_ok, list_filter_singleton in Hg as [Hin Hu].
  apply by_username_spec in Hu.
  assert (Hin' : u ∈ List.filter
            (fun v => exact None (Users.username v)
                      && Users.exact_uid (Some (Users.uid u)) (Users.uid v))
            objects).
  { rewrite list_elem_of_In, filter_In, <- list_elem_of_In.
    split; [done|]. by apply by_uid_spec. }
  destruct (List.filter _ objects) as [|a [|b l]]; simpl.
  - by apply elem_of_nil in Hin'.
  - apply list_elem_of_singleton in Hin' as <-. left. by rewrite Hu.
  - by right.
Qed.

Lemma uid_maps_back_witness :
  uid_to_username SampleUsers.clashing 3002 = Ok "bob"
  ∨ uid_to_username SampleUsers.clashing 3002 = Raise MultipleObjectsReturned.
Proof.
  apply (uid_maps_back SampleUsers.clashing "bob" 3002). reflexivity.
Defined.

(** ** The Prometheus wrapper *)

Lemma Forall2_ok_not_raise {A B} (f : A → result B) (l : list A) (bs : list B) :
  Forall2 (fun a b => f a = Ok b) l bs → ∀ a, a ∈ l → is_raise (f a) = false.
Proof.
  induction 1 as [|a b l bs Hab _ IH]; intros a' Hin.
  - by apply elem_of_nil in Hin.
  - apply elem_of_cons in Hin as [->|Hin]; [by rewrite Hab|by apply IH].
Qed.

Section MetricsMore.

Context {timestamp datetime pyfloat : Type}.
Variable fromtimestamp : timestamp → result datetime.
Variable float : string → result pyfloat.
Variable now : datetime.

Lemma normalized_convertible line entry :
  normalized fromtimestamp float line entry →
  convertible fromtimestamp float line.
Proof.
  intros (_ & Hx & Hy & _) p Hp. split.
  - by apply (Forall2_ok_not_raise (fun p => fromtimestamp p.1) _ _ Hx).
  - by apply (Forall2_ok_not_raise (fun p => float p.2) _ _ Hy).
Qed.

Lemma Forall2_normalized_convertible q out :
  Forall2 (normalized fromtimestamp float) q out →
  ∀ line, line ∈ q → convertible fromtimestamp float line.
Proof.
  induction 1 as [|line entry q out Hn _ IH]; intros line' Hin.
  - by apply elem_of_nil in Hin.
  - apply elem_of_cons in Hin as [->|Hin]; [|by apply IH].
    by eapply normalized_convertible.
Qed.

(** What [query_prometheus_multiple] returns comes from an answer of the
    backend, series by series. *)
Lemma query_prometheus_multiple_inv (self : Prometheus timestamp datetime)
    query start end_ step out :
  query_prometheus_multiple fromtimestamp float now self query start end_ step
  = Ok out →
  ∃ q, custom_query_range (prom self) query start (default now end_) step = Ok q
       ∧ Forall2 (normalized fromtimestamp float) q out.
Proof.
  unfold query_prometheus_multiple.
  replace (match end_ with Some e => e | None => now end) with (default now end_)
    by by destruct end_.
  destruct (custom_query_range _ _ _ _ _) as [q|e]; simpl; [|done].
  intros H. exists q. split; [done|]. by apply multiple_loop_ok.
Qed.

(** X15 -- [query_prometheus_multiple] is all or nothing: on an answer of
    the backend it returns a list if and only if every raw pair of every
    series converts; one value that is not a number, in any series, makes
    the whole query raise. *)
Theorem query_prometheus_multiple_returns_iff
    (self : Prometheus timestamp datetime) (query : string) (start : datetime)
    (end_ : option datetime) (step : string) (q : list (raw_series timestamp)) :
  custom_query_range (prom self) query start (default now end_) step = Ok q →
  is_raise (query_prometheus_multiple fromtimestamp float now self query start
              end_ step) = false
  ↔ ∀ line, line ∈ q → convertible fromtimestamp float line.
Proof.
  intros Hq. split.
  - destruct (query_prometheus_multiple _ _ _ _ _ _ _ _) as [out|e] eqn:Hm; [|done].
    intros _. apply query_prometheus_multiple_inv in Hm as (q' & Hq' & Hn).
    rewrite Hq in Hq'. injection Hq' as <-.
    by apply (Forall2_normalized_convertible q out).
  - intros Hc. unfold query_prometheus_multiple.
    replace (match end_ with Some e => e | None => now end) with (default now end_)
      by by destruct end_.
    rewrite Hq. simpl.
    by destruct (multiple_loop_total fromtimestamp float q Hc) as [out ->].
Qed.

(** X16 -- an exception of the backend's range query is raised unchanged
    by both query methods: it is neither caught nor turned into the
    [ValueError] of an empty answer. *)
Theorem backend_error_propagates (self : Prometheus timestamp datetime)
    (query : string) (start : datetime) (end_ : option datetime)
    (step : string) (e : exn) :
  custom_query_range (prom self) query start (default now end_) step = Raise e →
  query_prometheus_multiple fromtimestamp float now self query start end_ step
  = Raise e
  ∧ query_prometheus fromtimestamp float now self query start end_ step
    = Raise e.
Proof.
  intros Hq.
  assert (Hm : query_prometheus_multiple fromtimestamp float now self query
                 start end_ step = Raise e).
  { unfold query_prometheus_multiple.
    replace (match end_ with Some e => e | None => now end) with (default now end_)
      by by destruct end_.
    by rewrite Hq. }
  split; [done|]. unfold query_prometheus. by rewrite Hm.
Qed.

(** X17 -- the two sequences that [query_prometheus] returns have the same
    length. *)
Theorem query_prometheus_same_length (self : Prometheus timestamp datetime)
    (query : string) (duration : datetime) (end_ : option datetime)
    (step : string) (xs : list datetime) (ys : list pyfloat) :
  query_prometheus fromtimestamp float now self query duration end_ step
  = Ok (xs, ys) →
  length xs = length ys.
Proof.
  unfold query_prometheus.
  destruct (query_prometheus_multiple _ _ _ _ _ _ _ _) as [values|e] eqn:Hm;
    simpl; [|done].
  apply query_prometheus_multiple_inv in Hm as (q & _ & Hn).
  destruct Hn as [|line entry q out Hl _]; simpl; [done|].
  intros [= <- <-]. by destruct Hl as (_ & _ & _ & ?).
Qed.

(** X18 -- from the backend to the caller: when the backend answers with at
    least one series and every raw pair converts, [query_prometheus]
    returns the converted timestamps and the converted values of the
    first series, pair by pair; a first series without samples gives two
    empty sequences, not an error. *)
Theorem query_prometheus_end_to_end (self : Prometheus timestamp datetime)
    (query : string) (duration : datetime) (end_ : option datetime)
    (step : string) (line : raw_series timestamp)
    (rest : list (raw_series timestamp)) :
  custom_query_range (prom self) query duration (default now end_) step
  = Ok (line :: rest) →
  (∀ l, l ∈ line :: rest → convertible fromtimestamp float l) →
  ∃ xs ys,
    query_prometheus fromtimestamp float now self query duration end_ step
    = Ok (xs, ys)
    ∧ Forall2 (fun p d => fromtimestamp p.1 = Ok d) (raw_values line) xs
    ∧ Forall2 (fun p v => float p.2 = Ok v) (raw_values line) ys
    ∧ (raw_values line = [] → xs = [] ∧ ys = []).
Proof.
  intros Hq Hc. unfold query_prometheus, query_prometheus_multiple.
  replace (match end_ with Some e => e | None => now end) with (default now end_)
    by by destruct end_.
  rewrite Hq. unfold mbind, result_bind. cbv beta iota.
  destruct (multiple_loop_total fromtimestamp float _ Hc) as [out Hout].
  rewrite Hout.
  apply multiple_loop_ok in Hout.
  apply Forall2_cons_inv_l in Hout as (entry & out' & (Hm & Hx & Hy & _) & _ & ->).
  simpl. exists (x entry), (y entry). split_and!; [done..|].
  intros Hv. rewrite Hv in Hx, Hy.
  apply Forall2_nil_inv_l in Hx, Hy. by rewrite Hx, Hy.
Qed.

End MetricsMore.

Lemma query_prometheus_multiple_returns_iff_witness :
  is_raise (query_prometheus_multiple SampleMetrics.fromtimestamp
              SampleMetrics.float SampleMetrics.now SampleUsers.idle_self
              "cpu_usage" 1699999000 None "3m") = false
  ↔ ∀ line, line ∈ [SampleUsers.idle; SampleMetrics.node2] →
            convertible SampleMetrics.fromtimestamp SampleMetrics.float line.
Proof.
  apply (query_prometheus_multiple_returns_iff SampleMetrics.fromtimestamp
           SampleMetrics.float SampleMetrics.now SampleUsers.idle_self
           "cpu_usage" 1699999000 None "3m").
  reflexivity.
Defined.

Lemma backend_error_propagates_witness :
  query_prometheus SampleMetrics.fromtimestamp SampleMetrics.float
    SampleMetrics.now SampleUsers.down_self "cpu_usage" 1699999000 None "3m"
  = Raise (OtherError "connection refused").
Proof.
  apply (backend_error_propagates SampleMetrics.fromtimestamp SampleMetrics.float
           SampleMetrics.now SampleUsers.down_self "cpu_usage" 1699999000 None
           "3m" (OtherError "connection refused")).
  reflexivity.
Defined.

Lemma query_prometheus_same_length_witness :
  query_prometheus SampleMetrics.fromtimestamp SampleMetrics.float
    SampleMetrics.now SampleMetrics.self "cpu_usage" 1699999000 None "3m"
  = Ok ([1699999640; 1699999820], [12; 15])
  ∧ length [1699999640; 1699999820] = length [12; 15].
Proof.
  split; [reflexivity|].
  apply (query_prometheus_same_length SampleMetrics.fromtimestamp
           SampleMetrics.float SampleMetrics.now SampleMetrics.self
           "cpu_usage" 1699999000 None "3m").
  reflexivity.
Defined.

Lemma query_prometheus_end_to_end_witness :
  ∃ xs ys,
    query_prometheus SampleMetrics.fromtimestamp SampleMetrics.float
      SampleMetrics.now SampleUsers.idle_self "cpu_usage" 1699999000 None "3m"
    = Ok (xs, ys)
    ∧ Forall2 (fun p d => SampleMetrics.fromtimestamp p.1 = Ok d)
        (raw_values SampleUsers.idle) xs
    ∧ Forall2 (fun p v => SampleMetrics.float p.2 = Ok v)
        (raw_values SampleUsers.idle) ys
    ∧ (raw_values SampleUsers.idle = [] → xs = [] ∧ ys = []).
Proof.
  apply (query_prometheus_end_to_end SampleMetrics.fromtimestamp
           SampleMetrics.float SampleMetrics.now SampleUsers.idle_self
           "cpu_usage" 1699999000 None "3m" SampleUsers.idle
           [SampleMetrics.node2]).
  - reflexivity.
  - intros l Hl p Hp.
    apply elem_of_cons in Hl as [->|Hl];
      [by apply elem_of_nil in Hp|apply list_elem_of_singleton in Hl as ->].
    apply list_elem_of_singleton in Hp as ->. split; reflexivity.
Defined.

(** ** Construction of the wrapper *)

(** X19 -- [Prometheus(config)] reads ['url'], then ['headers'], builds the
    client, and reads ['filter'] last: the first of the keys that is
    missing is the one [KeyError] names, an exception of the client's
    constructor comes before a missing ['filter'], and with the three keys
    present [get_filter] returns the configured filter and the client is
    the one built from the url and the headers. *)
Theorem Prometheus_init_spec {timestamp datetime : Type}
    (connect : string → gmap string string →
               result (PrometheusConnect timestamp datetime))
    (cfg : config) :
  (cfg_url cfg = None → Prometheus_init connect cfg = Raise (KeyError "url"))
  ∧ (is_Some (cfg_url cfg) → cfg_headers cfg = None →
     Prometheus_init connect cfg = Raise (KeyError "headers"))
  ∧ (∀ url headers e,
       cfg_url cfg = Some url → cfg_headers cfg = Some headers →
       connect url headers = Raise e →
       Prometheus_init connect cfg = Raise e)
  ∧ (∀ url headers client,
       cfg_url cfg = Some url → cfg_headers cfg = Some headers →
       connect url headers = Ok client →
       match cfg_filter cfg with
       | None => Prometheus_init connect cfg = Raise (KeyError "filter")
       | Some flt =>
           ∃ self, Prometheus_init connect cfg = Ok self
                   ∧ get_filter _ _ self = flt ∧ prom self = client
       end).
Proof.
  unfold Prometheus_init. split_and!.
  - by intros ->.
  - by intros [url ->] ->.
  - intros url headers e -> -> H. simpl. by rewrite H.
  - intros url headers client -> -> H. simpl. rewrite H. simpl.
    destruct (cfg_filter cfg) as [flt|]; simpl; [|done].
    by eexists.
Qed.

Lemma Prometheus_init_spec_witness :
  Prometheus_init SampleUsers.connect SampleUsers.no_filter_config
  = Raise (KeyError "filter")
  ∧ ∃ self, Prometheus_init SampleUsers.connect SampleUsers.full_config = Ok self
            ∧ get_filter _ _ self = "cluster='c1'"
            ∧ prom self = SampleMetrics.backend.
Proof.
  split.
  - apply (proj2 (proj2 (proj2 (Prometheus_init_spec SampleUsers.connect
                                  SampleUsers.no_filter_config)))
             "https://prometheus.example.org" ∅ SampleMetrics.backend);
      reflexivity.
  - apply (proj2 (proj2 (proj2 (Prometheus_init_spec SampleUsers.connect
                                  SampleUsers.full_config)))
             "https://prometheus.example.org"
             {[ "Authorization" := "Basic abc" ]} SampleMetrics.backend);
      reflexivity.
Defined.
